(** * Fused multi-headed attention runner (XLA GPU)

    A shallow embedding of
    [tensorflow/compiler/xla/service/gpu/gpu_fused_mha_runner.h]:
    the descriptor, the configuration, the bound parameters and the
    [FusedMultiHeadedAttentionRunner] class with its closed variant of
    lazily built execution plans.

    C++ effects are made explicit.  A call that can hit a [CHECK] yields an
    [Outcome]; a fallible factory yields a [StatusOr]; a [std::unique_ptr]
    is a nullable owner; the [std::variant] is an inductive type with its
    alternatives in declaration order. *)

From Stdlib Require Import ZArith List String Bool.
Import ListNotations.
Open Scope string_scope.
Open Scope Z_scope.

Set Implicit Arguments.

(** ** Control outcomes *)

(** What a call does: it returns, it dies in a [CHECK] (the process is
    aborted with the message), or the language gives it no meaning (a
    null pointer is dereferenced). *)
Inductive Outcome (A : Type) : Type :=
| Returns (a : A)
| CheckFailure (msg : string)
| UndefinedBehavior.

Arguments Returns {A} a.
Arguments CheckFailure {A} msg.
Arguments UndefinedBehavior {A}.

Definition is_check_failure {A} (o : Outcome A) : bool :=
  match o with CheckFailure _ => true | _ => false end.

Definition map_outcome {A B} (f : A -> B) (o : Outcome A) : Outcome B :=
  match o with
  | Returns a => Returns (f a)
  | CheckFailure msg => CheckFailure msg
  | UndefinedBehavior => UndefinedBehavior
  end.

(** [std::unique_ptr<T>]: either null or the owned object. *)
Definition unique_ptr (T : Type) : Type := option T.
Definition nullptr {T} : unique_ptr T := None.
Definition make_unique {T} (t : T) : unique_ptr T := Some t.
(** [unique_ptr::get()]: the raw pointer, null when nothing is owned. *)
Definition get {T} (p : unique_ptr T) : option T := p.

(** ** The kind taxonomy *)

(** Modelled from the spec: the enumeration [CudnnfMHAKind] is declared in
    [cublas_cudnn.h], which is not among the sources.  Its members are the
    nine kinds that the spec's mapping lists and that the case labels of
    [CreateRunner] name, in the order of those labels. *)
Inductive CudnnfMHAKind : Type :=
| kBmmBmm
| kSoftmaxDropout
| kSoftmax
| kScaleBiasSoftmax
| kScaleBiasSoftmaxDropout
| kScaleMaskSoftmax
| kScaleMaskSoftmaxDropout
| kScaleBiasMaskSoftmax
| kScaleBiasMaskSoftmaxDropout.

Definition all_kinds : list CudnnfMHAKind :=
  [kBmmBmm; kSoftmaxDropout; kSoftmax;
   kScaleBiasSoftmax; kScaleBiasSoftmaxDropout;
   kScaleMaskSoftmax; kScaleMaskSoftmaxDropout;
   kScaleBiasMaskSoftmax; kScaleBiasMaskSoftmaxDropout].

Definition CudnnfMHAKind_eqb (a b : CudnnfMHAKind) : bool :=
  match a, b with
  | kBmmBmm, kBmmBmm
  | kSoftmaxDropout, kSoftmaxDropout
  | kSoftmax, kSoftmax
  | kScaleBiasSoftmax, kScaleBiasSoftmax
  | kScaleBiasSoftmaxDropout, kScaleBiasSoftmaxDropout
  | kScaleMaskSoftmax, kScaleMaskSoftmax
  | kScaleMaskSoftmaxDropout, kScaleMaskSoftmaxDropout
  | kScaleBiasMaskSoftmax, kScaleBiasMaskSoftmax
  | kScaleBiasMaskSoftmaxDropout, kScaleBiasMaskSoftmaxDropout => true
  | _, _ => false
  end.

(** ** The stream-executor types the header uses *)

Module dnn.

(** Modelled from the spec: [se::dnn::AlgorithmDesc] is declared in
    [stream_executor/dnn.h], which is not among the sources.  It is the
    algorithm identifier of a plan: a number, the tensor-op flag and an
    optional workspace size. *)
Record AlgorithmDesc : Type := mkAlgorithmDesc {
  algo_id : Z;
  tensor_ops_enabled : bool;
  workspace_size : option Z
}.

(** The four plan families, the template arguments of [LazyOpRunner]. *)
Inductive FusedMHAOp : Type :=
| FusedMHASoftmaxOp
| FusedMHAScaleMaskSoftmaxOp
| FusedMHAScaleBiasSoftmaxOp
| FusedMHAScaleBiasMaskSoftmaxOp.

(** Modelled from the spec: [se::dnn::LazyOpRunner<Op>] is declared in
    [stream_executor/lazy_op_runner.h], which is not among the sources.
    A plan is constructed from an algorithm identifier and
    [ToAlgorithmDesc] returns the identifier it was constructed with. *)
Record LazyOpRunner (Op : FusedMHAOp) : Type := mkLazyOpRunner {
  desc_ : AlgorithmDesc
}.

Arguments mkLazyOpRunner Op desc_ : clear implicits.

Definition ToAlgorithmDesc {Op} (runner : LazyOpRunner Op) : AlgorithmDesc :=
  desc_ runner.

(** Modelled from the spec: [se::dnn::TensorDescriptor], the canonical
    descriptor of an operand: element type and semantic dimensions. *)
Record TensorDescriptor : Type := mkTensorDescriptor {
  d_type_ : Z;
  dimensions_ : list Z
}.

(** Modelled from the spec: [se::dnn::MatmulTensorDescriptor], a tensor
    descriptor with the batch and contracting axes of a matmul operand. *)
Record MatmulTensorDescriptor : Type := mkMatmulTensorDescriptor {
  tensor_ : TensorDescriptor;
  batch_dimension_numbers_ : list Z;
  contracting_dim_ : list Z
}.

End dnn.

(** Modelled from the spec: [se::DeviceMemoryBase] is declared in the
    stream executor, which is not among the sources.  A handle is a device
    address and a byte size; an optional operand that is not supplied is
    passed as the null handle. *)
Record DeviceMemoryBase : Type := mkDeviceMemoryBase {
  opaque : Z;
  size : Z
}.

Definition is_null (b : DeviceMemoryBase) : bool := opaque b =? 0.

(** Modelled from the spec: [PrimitiveType] is a protocol-buffer
    enumeration of [xla_data.proto]; it is carried as its number. *)
Definition PrimitiveType : Type := Z.

(** Modelled from the spec: an XLA [Shape] as far as the configuration
    reads it: the element type and the dimension sizes. *)
Record Shape : Type := mkShape {
  element_type : PrimitiveType;
  dimensions : list Z
}.

(** Modelled from the spec: [DotDimensionNumbers], which axes of the two
    operands of a batched matmul are batch and which are contracting. *)
Record DotDimensionNumbers : Type := mkDotDimensionNumbers {
  lhs_batch_dimensions : list Z;
  lhs_contracting_dimensions : list Z;
  rhs_batch_dimensions : list Z;
  rhs_contracting_dimensions : list Z
}.

(** Modelled from the spec: [CudnnfMHABackendConfig], the backend blob:
    scale, dropout rate and seed, each optionally present.  A [double] is
    carried as its 64-bit pattern; it is only copied. *)
Record CudnnfMHABackendConfig : Type := mkCudnnfMHABackendConfig {
  backend_fmha_scale : option Z;
  backend_dropout_rate : option Z;
  backend_seed : option Z
}.

(** ** The structures of the header *)

Record GpufMHADescriptor : Type := mkGpufMHADescriptor {
  desc_kind : CudnnfMHAKind;
  backend_config : CudnnfMHABackendConfig;
  lhs_bmm1_shape : Shape;
  rhs_bmm1_shape : Shape;
  rhs_bmm2_shape : Shape;
  intermediate_lhs_bmm2_shape : Shape;
  output_shape : Shape;
  bmm1_dnums : DotDimensionNumbers;
  bmm2_dnums : DotDimensionNumbers;
  mask_shape : option Shape;
  bias_shape : option Shape
}.

Record GpufMHAConfig : Type := mkGpufMHAConfig {
  input_type : PrimitiveType;
  output_type : PrimitiveType;
  kind : CudnnfMHAKind;
  fmha_scale : option Z;
  dropout_rate : option Z;
  seed : option Z;
  algorithm : dnn.AlgorithmDesc;
  lhs_bmm1 : dnn.MatmulTensorDescriptor;
  rhs_bmm1 : dnn.MatmulTensorDescriptor;
  rhs_bmm2 : dnn.MatmulTensorDescriptor;
  intermediate_lhs_bmm2 : dnn.MatmulTensorDescriptor;
  output : dnn.TensorDescriptor;
  mask : option dnn.TensorDescriptor;
  bias : option dnn.TensorDescriptor
}.

(** [config] is a pointer that is not owned; the configuration is
    immutable, so the record holds the value it points to. *)
Record GpufMHAParams : Type := mkGpufMHAParams {
  config : GpufMHAConfig;
  lhs_bmm1_buffer : DeviceMemoryBase;
  rhs_bmm1_buffer : DeviceMemoryBase;
  rhs_bmm2_buffer : DeviceMemoryBase;
  output_buffer : DeviceMemoryBase;
  mask_buffer : option DeviceMemoryBase;
  bias_buffer : option DeviceMemoryBase
}.

(** ** FusedMultiHeadedAttentionRunner *)

(** [Repr]: the variant, alternatives in the order of the declaration. *)
Inductive Repr : Type :=
| monostate
| SoftmaxPlan (p : unique_ptr (dnn.LazyOpRunner dnn.FusedMHASoftmaxOp))
| ScaleMaskSoftmaxPlan
    (p : unique_ptr (dnn.LazyOpRunner dnn.FusedMHAScaleMaskSoftmaxOp))
| ScaleBiasSoftmaxPlan
    (p : unique_ptr (dnn.LazyOpRunner dnn.FusedMHAScaleBiasSoftmaxOp))
| ScaleBiasMaskSoftmaxPlan
    (p : unique_ptr (dnn.LazyOpRunner dnn.FusedMHAScaleBiasMaskSoftmaxOp)).

(** The class has one data member. *)
Record FusedMultiHeadedAttentionRunner : Type := mkRunner {
  repr_ : Repr
}.

(** The plan family a variant holds, if it holds one. *)
Definition family (r : Repr) : option dnn.FusedMHAOp :=
  match r with
  | monostate => None
  | SoftmaxPlan _ => Some dnn.FusedMHASoftmaxOp
  | ScaleMaskSoftmaxPlan _ => Some dnn.FusedMHAScaleMaskSoftmaxOp
  | ScaleBiasSoftmaxPlan _ => Some dnn.FusedMHAScaleBiasSoftmaxOp
  | ScaleBiasMaskSoftmaxPlan _ => Some dnn.FusedMHAScaleBiasMaskSoftmaxOp
  end.

(** [std::holds_alternative<std::monostate>]. *)
Definition holds_monostate (r : Repr) : bool :=
  match r with monostate => true | _ => false end.

(** [std::holds_alternative<std::unique_ptr<LazyOpRunner<Op>>>], one per
    plan family. *)
Definition holds_Softmax (r : Repr) : bool :=
  match r with SoftmaxPlan _ => true | _ => false end.
Definition holds_ScaleMaskSoftmax (r : Repr) : bool :=
  match r with ScaleMaskSoftmaxPlan _ => true | _ => false end.
Definition holds_ScaleBiasSoftmax (r : Repr) : bool :=
  match r with ScaleBiasSoftmaxPlan _ => true | _ => false end.
Definition holds_ScaleBiasMaskSoftmax (r : Repr) : bool :=
  match r with ScaleBiasMaskSoftmaxPlan _ => true | _ => false end.

(** *** Constructors *)

(** [FusedMultiHeadedAttentionRunner() = default]: the variant is
    value-initialised to its first alternative. *)
Definition Runner_default : FusedMultiHeadedAttentionRunner :=
  mkRunner monostate.

(** The four constructors that take a plan pointer. *)
Definition Runner_of_Softmax
  (runner : unique_ptr (dnn.LazyOpRunner dnn.FusedMHASoftmaxOp))
  : FusedMultiHeadedAttentionRunner := mkRunner (SoftmaxPlan runner).
Definition Runner_of_ScaleMaskSoftmax
  (runner : unique_ptr (dnn.LazyOpRunner dnn.FusedMHAScaleMaskSoftmaxOp))
  : FusedMultiHeadedAttentionRunner := mkRunner (ScaleMaskSoftmaxPlan runner).
Definition Runner_of_ScaleBiasMaskSoftmax
  (runner : unique_ptr (dnn.LazyOpRunner dnn.FusedMHAScaleBiasMaskSoftmaxOp))
  : FusedMultiHeadedAttentionRunner :=
  mkRunner (ScaleBiasMaskSoftmaxPlan runner).
Definition Runner_of_ScaleBiasSoftmax
  (runner : unique_ptr (dnn.LazyOpRunner dnn.FusedMHAScaleBiasSoftmaxOp))
  : FusedMultiHeadedAttentionRunner := mkRunner (ScaleBiasSoftmaxPlan runner).

(** [explicit FusedMultiHeadedAttentionRunner(Repr runner)]. *)
Definition Runner_of_Repr (runner : Repr) : FusedMultiHeadedAttentionRunner :=
  mkRunner runner.

(** [CreateRunner]: the switch over the kind; every return builds a fresh
    plan from the configuration's algorithm. *)
Definition CreateRunner (config : GpufMHAConfig) : Repr :=
  match kind config with
  | kBmmBmm
  | kSoftmaxDropout
  | kSoftmax =>
      SoftmaxPlan
        (make_unique (dnn.mkLazyOpRunner dnn.FusedMHASoftmaxOp
                        (algorithm config)))
  | kScaleBiasSoftmax
  | kScaleBiasSoftmaxDropout =>
      ScaleBiasSoftmaxPlan
        (make_unique (dnn.mkLazyOpRunner dnn.FusedMHAScaleBiasSoftmaxOp
                        (algorithm config)))
  | kScaleMaskSoftmax
  | kScaleMaskSoftmaxDropout =>
      ScaleMaskSoftmaxPlan
        (make_unique (dnn.mkLazyOpRunner dnn.FusedMHAScaleMaskSoftmaxOp
                        (algorithm config)))
  | kScaleBiasMaskSoftmax
  | kScaleBiasMaskSoftmaxDropout =>
      ScaleBiasMaskSoftmaxPlan
        (make_unique (dnn.mkLazyOpRunner dnn.FusedMHAScaleBiasMaskSoftmaxOp
                        (algorithm config)))
  end.

(** The case labels of the switch, family by family. *)
Definition case_labels (Op : dnn.FusedMHAOp) : list CudnnfMHAKind :=
  match Op with
  | dnn.FusedMHASoftmaxOp => [kBmmBmm; kSoftmaxDropout; kSoftmax]
  | dnn.FusedMHAScaleBiasSoftmaxOp =>
      [kScaleBiasSoftmax; kScaleBiasSoftmaxDropout]
  | dnn.FusedMHAScaleMaskSoftmaxOp =>
      [kScaleMaskSoftmax; kScaleMaskSoftmaxDropout]
  | dnn.FusedMHAScaleBiasMaskSoftmaxOp =>
      [kScaleBiasMaskSoftmax; kScaleBiasMaskSoftmaxDropout]
  end.



(** The body of the constructor that takes a configuration, run on the
    object its delegation target has initialised. *)
Definition check_initialised (this : FusedMultiHeadedAttentionRunner)
  : Outcome FusedMultiHeadedAttentionRunner :=
  if holds_monostate (repr_ this)
  then CheckFailure
         "Cannot construct FusedMultiHeadedAttentionRunner with std::monostate"
  else Returns this.

(** [explicit FusedMultiHeadedAttentionRunner(const GpufMHAConfig& config)]:
    delegates to the [Repr] constructor on [CreateRunner(config)], then
    runs its body. *)
Definition Runner_of_Config (config : GpufMHAConfig)
  : Outcome FusedMultiHeadedAttentionRunner :=
  check_initialised (Runner_of_Repr (CreateRunner config)).

(** *** ToAlgorithmDesc *)

(** [ToAlgorithmDescVisitor::operator()(const RunnerPtr&)]:
    [runner->ToAlgorithmDesc()]; the arrow dereferences the pointer. *)
Definition visit_RunnerPtr {Op} (runner : unique_ptr (dnn.LazyOpRunner Op))
  : Outcome dnn.AlgorithmDesc :=
  match runner with
  | Some plan => Returns (dnn.ToAlgorithmDesc plan)
  | None => UndefinedBehavior
  end.

(** [ToAlgorithmDescVisitor::operator()(const std::monostate&)]. *)
Definition visit_monostate : Outcome dnn.AlgorithmDesc :=
  CheckFailure "Internal error: uninitialized runner in ToAlgorithmDesc".

(** [ToAlgorithmDesc() const]: [std::visit] of the visitor over [repr_]. *)
Definition ToAlgorithmDesc (this : FusedMultiHeadedAttentionRunner)
  : Outcome dnn.AlgorithmDesc :=
  match repr_ this with
  | monostate => visit_monostate
  | SoftmaxPlan p => visit_RunnerPtr p
  | ScaleMaskSoftmaxPlan p => visit_RunnerPtr p
  | ScaleBiasSoftmaxPlan p => visit_RunnerPtr p
  | ScaleBiasMaskSoftmaxPlan p => visit_RunnerPtr p
  end.

(** *** Narrowing accessors

    Each one checks the alternative and returns the raw pointer of the
    owned plan. *)

Definition AsFusedMHASoftmaxRunner (this : FusedMultiHeadedAttentionRunner)
  : Outcome (option (dnn.LazyOpRunner dnn.FusedMHASoftmaxOp)) :=
  match repr_ this with
  | SoftmaxPlan p => Returns (get p)
  | _ => CheckFailure "Check failed: holds_alternative<FusedMHASoftmaxOp>"
  end.

Definition AsFusedMHAMaskRunner (this : FusedMultiHeadedAttentionRunner)
  : Outcome (option (dnn.LazyOpRunner dnn.FusedMHAScaleMaskSoftmaxOp)) :=
  match repr_ this with
  | ScaleMaskSoftmaxPlan p => Returns (get p)
  | _ =>
      CheckFailure "Check failed: holds_alternative<FusedMHAScaleMaskSoftmaxOp>"
  end.

Definition AsFusedMHABiasMaskRunner (this : FusedMultiHeadedAttentionRunner)
  : Outcome (option (dnn.LazyOpRunner dnn.FusedMHAScaleBiasMaskSoftmaxOp)) :=
  match repr_ this with
  | ScaleBiasMaskSoftmaxPlan p => Returns (get p)
  | _ =>
      CheckFailure
        "Check failed: holds_alternative<FusedMHAScaleBiasMaskSoftmaxOp>"
  end.

Definition AsFusedMHABiasRunner (this : FusedMultiHeadedAttentionRunner)
  : Outcome (option (dnn.LazyOpRunner dnn.FusedMHAScaleBiasSoftmaxOp)) :=
  match repr_ this with
  | ScaleBiasSoftmaxPlan p => Returns (get p)
  | _ =>
      CheckFailure "Check failed: holds_alternative<FusedMHAScaleBiasSoftmaxOp>"
  end.

(** *** The narrowing accessors, uniformly

    The four accessors return pointers of four types; [narrow] erases the
    family so that they can be compared. *)

Inductive Accessor : Type :=
| Softmax_accessor
| Mask_accessor
| Bias_accessor
| BiasMask_accessor.

(** The family an accessor narrows to. *)
Definition accessor_family (a : Accessor) : dnn.FusedMHAOp :=
  match a with
  | Softmax_accessor => dnn.FusedMHASoftmaxOp
  | Mask_accessor => dnn.FusedMHAScaleMaskSoftmaxOp
  | Bias_accessor => dnn.FusedMHAScaleBiasSoftmaxOp
  | BiasMask_accessor => dnn.FusedMHAScaleBiasMaskSoftmaxOp
  end.

(** A plan of any family. *)
Definition AnyPlan : Type := {Op : dnn.FusedMHAOp & dnn.LazyOpRunner Op}.

Definition erase {Op} (p : option (dnn.LazyOpRunner Op)) : option AnyPlan :=
  option_map (existT _ Op) p.

Definition narrow (a : Accessor) (this : FusedMultiHeadedAttentionRunner)
  : Outcome (option AnyPlan) :=
  match a with
  | Softmax_accessor => map_outcome erase (AsFusedMHASoftmaxRunner this)
  | Mask_accessor => map_outcome erase (AsFusedMHAMaskRunner this)
  | Bias_accessor => map_outcome erase (AsFusedMHABiasRunner this)
  | BiasMask_accessor => map_outcome erase (AsFusedMHABiasMaskRunner this)
  end.

(** The raw pointer of the plan a variant owns; null for [monostate]. *)
Definition held_plan (r : Repr) : option AnyPlan :=
  match r with
  | monostate => None
  | SoftmaxPlan p => erase (get p)
  | ScaleMaskSoftmaxPlan p => erase (get p)
  | ScaleBiasSoftmaxPlan p => erase (get p)
  | ScaleBiasMaskSoftmaxPlan p => erase (get p)
  end.

(** *** Sequences of operations on one runner

    The operations of the class after construction, in state-passing
    style: a call that returns yields what it returned and the object as
    the call left it.  None of the five member functions assigns to
    [repr_]. *)

Inductive Operation : Type :=
| call_ToAlgorithmDesc
| call_accessor (a : Accessor).

Inductive Observation : Type :=
| saw_algorithm (d : dnn.AlgorithmDesc)
| saw_plan (p : option AnyPlan).

Definition apply (op : Operation) (this : FusedMultiHeadedAttentionRunner)
  : Outcome (Observation * FusedMultiHeadedAttentionRunner) :=
  match op with
  | call_ToAlgorithmDesc =>
      map_outcome (fun d => (saw_algorithm d, this)) (ToAlgorithmDesc this)
  | call_accessor a =>
      map_outcome (fun p => (saw_plan p, this)) (narrow a this)
  end.

(** The states of the runner after each operation of a sequence that
    completed; a fatal check ends the process and with it the sequence. *)
Fixpoint states (ops : list Operation) (this : FusedMultiHeadedAttentionRunner)
  : list FusedMultiHeadedAttentionRunner :=
  match ops with
  | [] => []
  | op :: rest =>
      match apply op this with
      | Returns (_, this') => this' :: states rest this'
      | _ => []
      end
  end.

(** ** Fallible factories *)

Inductive OptionalOperand : Type := MaskOperand | BiasOperand.

(** Modelled from the spec: [Status] is declared in [status.h], which is
    not among the sources.  The recoverable errors are those of the spec's
    error taxonomy: a configuration error (missing operand, unexpected
    operand, dimension numbers inconsistent with the shape) and a binding
    error (buffer set does not match the variant). *)
Inductive Status : Type :=
| MissingOperand (o : OptionalOperand)
| UnexpectedOperand (o : OptionalOperand)
| InconsistentDimensionNumbers
| BufferVariantMismatch (o : OptionalOperand).

Definition is_configuration_error (s : Status) : bool :=
  match s with
  | MissingOperand _ | UnexpectedOperand _ | InconsistentDimensionNumbers => true
  | BufferVariantMismatch _ => false
  end.

Definition is_binding_error (s : Status) : bool :=
  match s with BufferVariantMismatch _ => true | _ => false end.

(** [StatusOr<T>]: a value or an error, never both. *)
Inductive StatusOr (T : Type) : Type :=
| Ok (value : T)
| Err (status : Status).

Arguments Ok {T} value.
Arguments Err {T} status.

(** [StatusOr::ok()] and the value it carries, if any. *)
Definition ok {T} (r : StatusOr T) : bool :=
  match r with Ok _ => true | Err _ => false end.
Definition value_of {T} (r : StatusOr T) : option T :=
  match r with Ok v => Some v | Err _ => None end.

Definition bind {A B} (r : StatusOr A) (k : A -> StatusOr B) : StatusOr B :=
  match r with
  | Ok a => k a
  | Err s => Err s
  end.

Notation "x <- r ;; k" := (bind r (fun x => k))
  (at level 61, r at next level, right associativity).

Definition is_some {A} (o : option A) : bool :=
  match o with Some _ => true | None => false end.

(** Modelled from the spec: which kinds of the taxonomy take a mask and
    which take a bias; the kind's name says which optional operands are
    active. *)
Definition requires_mask (k : CudnnfMHAKind) : bool :=
  match k with
  | kScaleMaskSoftmax | kScaleMaskSoftmaxDropout
  | kScaleBiasMaskSoftmax | kScaleBiasMaskSoftmaxDropout => true
  | _ => false
  end.

Definition requires_bias (k : CudnnfMHAKind) : bool :=
  match k with
  | kScaleBiasSoftmax | kScaleBiasSoftmaxDropout
  | kScaleBiasMaskSoftmax | kScaleBiasMaskSoftmaxDropout => true
  | _ => false
  end.

(** Modelled from the spec: the presence check of the configuration
    normalizer, which is defined outside the header: an optional shape is
    present exactly when the kind requires it. *)
Definition check_optional_shape
  (o : OptionalOperand) (required : bool) (shape : option Shape)
  : StatusOr unit :=
  match required, shape with
  | true, None => Err (MissingOperand o)
  | false, Some _ => Err (UnexpectedOperand o)
  | _, _ => Ok tt
  end.

(** Modelled from the spec: the descriptor builder, which is defined
    outside the header.  The descriptor of an operand without dimension
    numbers keeps the element type and the dimensions. *)
Definition TensorDescriptor_For (shape : Shape) : dnn.TensorDescriptor :=
  dnn.mkTensorDescriptor (element_type shape) (dimensions shape).

(** Modelled from the spec: the descriptor builder for a matmul operand;
    it fails if the counts of batch and contracting axes are inconsistent
    with the rank of the shape. *)
Definition MatmulTensorDescriptor_For
  (shape : Shape) (batch_dims contracting_dims : list Z)
  : StatusOr dnn.MatmulTensorDescriptor :=
  if (List.length batch_dims + List.length contracting_dims
      <=? List.length (dimensions shape))%nat
  then Ok (dnn.mkMatmulTensorDescriptor (TensorDescriptor_For shape)
             batch_dims contracting_dims)
  else Err InconsistentDimensionNumbers.

Section Normalizer.

(** The single well-known algorithm the normalizer selects. *)
Variable default_algorithm : dnn.AlgorithmDesc.

(** Modelled from the spec: [GpufMHAConfig::For] is declared in the header
    and defined outside it.  It validates the optional shapes against the
    kind, records the element types, copies scale, dropout rate and seed,
    selects the algorithm and builds the operand descriptors. *)
Definition GpufMHAConfig_For (fmha_desc : GpufMHADescriptor)
  : StatusOr GpufMHAConfig :=
  _ <- check_optional_shape MaskOperand
         (requires_mask (desc_kind fmha_desc)) (mask_shape fmha_desc) ;;
  _ <- check_optional_shape BiasOperand
         (requires_bias (desc_kind fmha_desc)) (bias_shape fmha_desc) ;;
  lhs1 <- MatmulTensorDescriptor_For (lhs_bmm1_shape fmha_desc)
            (lhs_batch_dimensions (bmm1_dnums fmha_desc))
            (lhs_contracting_dimensions (bmm1_dnums fmha_desc)) ;;
  rhs1 <- MatmulTensorDescriptor_For (rhs_bmm1_shape fmha_desc)
            (rhs_batch_dimensions (bmm1_dnums fmha_desc))
            (rhs_contracting_dimensions (bmm1_dnums fmha_desc)) ;;
  rhs2 <- MatmulTensorDescriptor_For (rhs_bmm2_shape fmha_desc)
            (rhs_batch_dimensions (bmm2_dnums fmha_desc))
            (rhs_contracting_dimensions (bmm2_dnums fmha_desc)) ;;
  lhs2 <- MatmulTensorDescriptor_For (intermediate_lhs_bmm2_shape fmha_desc)
            (lhs_batch_dimensions (bmm2_dnums fmha_desc))
            (lhs_contracting_dimensions (bmm2_dnums fmha_desc)) ;;
  Ok {| input_type := element_type (lhs_bmm1_shape fmha_desc);
        output_type := element_type (output_shape fmha_desc);
        kind := desc_kind fmha_desc;
        fmha_scale := backend_fmha_scale (backend_config fmha_desc);
        dropout_rate := backend_dropout_rate (backend_config fmha_desc);
        seed := backend_seed (backend_config fmha_desc);
        algorithm := default_algorithm;
        lhs_bmm1 := lhs1;
        rhs_bmm1 := rhs1;
        rhs_bmm2 := rhs2;
        intermediate_lhs_bmm2 := lhs2;
        output := TensorDescriptor_For (output_shape fmha_desc);
        mask := option_map TensorDescriptor_For (mask_shape fmha_desc);
        bias := option_map TensorDescriptor_For (bias_shape fmha_desc) |}.

End Normalizer.

(** Modelled from the spec: the presence check of the parameter binder: an
    optional buffer is supplied exactly when the configuration has the
    corresponding descriptor; on a match the bound optional buffer is the
    handle, or nothing. *)
Definition bind_optional_buffer
  (o : OptionalOperand) (descriptor : option dnn.TensorDescriptor)
  (buffer : DeviceMemoryBase) : StatusOr (option DeviceMemoryBase) :=
  match descriptor, is_null buffer with
  | Some _, false => Ok (Some buffer)
  | None, true => Ok None
  | _, _ => Err (BufferVariantMismatch o)
  end.

(** Modelled from the spec: [GpufMHAParams::For] is declared in the header
    and defined outside it.  It checks both optional buffers against the
    configuration and keeps a reference to the configuration with the
    buffer handles. *)
Definition GpufMHAParams_For
  (config : GpufMHAConfig)
  (lhs_bmm1_buffer rhs_bmm1_buffer rhs_bmm2_buffer output_buffer
   mask_buffer bias_buffer : DeviceMemoryBase)
  : StatusOr GpufMHAParams :=
  bound_mask <- bind_optional_buffer MaskOperand (mask config) mask_buffer ;;
  bound_bias <- bind_optional_buffer BiasOperand (bias config) bias_buffer ;;
  Ok (mkGpufMHAParams config lhs_bmm1_buffer rhs_bmm1_buffer rhs_bmm2_buffer
        output_buffer bound_mask bound_bias).

(** A buffer set matches a configuration when each optional buffer is
    supplied exactly when its descriptor is present. *)
Definition buffers_match
  (config : GpufMHAConfig) (mask_buffer bias_buffer : DeviceMemoryBase) : bool :=
  Bool.eqb (negb (is_null mask_buffer)) (is_some (mask config))
  && Bool.eqb (negb (is_null bias_buffer)) (is_some (bias config)).

(** ** Kind values the switch does not name *)





(** ** The member functions in state-passing form

    Each member function again, now with the object it leaves behind: a
    call that returns yields its result and the runner after the call,
    computed from what the body does to [repr_]. *)

(** [unique_ptr::get() const]: the stored pointer is returned and stays
    stored (unlike [release()], which would leave null behind). *)
Definition unique_ptr_get {T} (p : unique_ptr T) : option T * unique_ptr T :=
  (p, p).

(** Modelled from the spec: [LazyOpRunner<Op>::ToAlgorithmDesc], declared
    outside the sources, returns the identifier the plan was constructed
    with; reading it leaves the plan as it is. *)
Definition LazyOpRunner_ToAlgorithmDesc {Op} (plan : dnn.LazyOpRunner Op)
  : dnn.AlgorithmDesc * dnn.LazyOpRunner Op :=
  (dnn.ToAlgorithmDesc plan, plan).

(** The visitor on a plan pointer: the pointer is passed by const
    reference and dereferenced; the call acts on the plan it points to. *)
Definition visit_RunnerPtr_st {Op} (runner : unique_ptr (dnn.LazyOpRunner Op))
  : Outcome (dnn.AlgorithmDesc * unique_ptr (dnn.LazyOpRunner Op)) :=
  match runner with
  | Some plan =>
      let (d, plan') := LazyOpRunner_ToAlgorithmDesc plan in
      Returns (d, Some plan')
  | None => UndefinedBehavior
  end.

(** Put what a visit left of the alternative back into the object. *)
Definition store {A P} (alternative : P -> Repr) (o : Outcome (A * P))
  : Outcome (A * FusedMultiHeadedAttentionRunner) :=
  map_outcome (fun ap => (fst ap, mkRunner (alternative (snd ap)))) o.

(** [ToAlgorithmDesc() const]: the visit over [repr_]. *)
Definition ToAlgorithmDesc_st (this : FusedMultiHeadedAttentionRunner)
  : Outcome (dnn.AlgorithmDesc * FusedMultiHeadedAttentionRunner) :=
  match repr_ this with
  | monostate =>
      CheckFailure "Internal error: uninitialized runner in ToAlgorithmDesc"
  | SoftmaxPlan p => store SoftmaxPlan (visit_RunnerPtr_st p)
  | ScaleMaskSoftmaxPlan p => store ScaleMaskSoftmaxPlan (visit_RunnerPtr_st p)
  | ScaleBiasSoftmaxPlan p => store ScaleBiasSoftmaxPlan (visit_RunnerPtr_st p)
  | ScaleBiasMaskSoftmaxPlan p =>
      store ScaleBiasMaskSoftmaxPlan (visit_RunnerPtr_st p)
  end.

(** The accessors: after the check, [std::get] yields a reference to the
    held pointer inside [repr_] and [get()] is called on it in place. *)
Definition AsFusedMHASoftmaxRunner_st (this : FusedMultiHeadedAttentionRunner)
  : Outcome (option (dnn.LazyOpRunner dnn.FusedMHASoftmaxOp)
             * FusedMultiHeadedAttentionRunner) :=
  match repr_ this with
  | SoftmaxPlan p => store SoftmaxPlan (Returns (unique_ptr_get p))
  | _ => CheckFailure "Check failed: holds_alternative<FusedMHASoftmaxOp>"
  end.

Definition AsFusedMHAMaskRunner_st (this : FusedMultiHeadedAttentionRunner)
  : Outcome (option (dnn.LazyOpRunner dnn.FusedMHAScaleMaskSoftmaxOp)
             * FusedMultiHeadedAttentionRunner) :=
  match repr_ this with
  | ScaleMaskSoftmaxPlan p =>
      store ScaleMaskSoftmaxPlan (Returns (unique_ptr_get p))
  | _ =>
      CheckFailure "Check failed: holds_alternative<FusedMHAScaleMaskSoftmaxOp>"
  end.

Definition AsFusedMHABiasMaskRunner_st (this : FusedMultiHeadedAttentionRunner)
  : Outcome (option (dnn.LazyOpRunner dnn.FusedMHAScaleBiasMaskSoftmaxOp)
             * FusedMultiHeadedAttentionRunner) :=
  match repr_ this with
  | ScaleBiasMaskSoftmaxPlan p =>
      store ScaleBiasMaskSoftmaxPlan (Returns (unique_ptr_get p))
  | _ =>
      CheckFailure
        "Check failed: holds_alternative<FusedMHAScaleBiasMaskSoftmaxOp>"
  end.

Definition AsFusedMHABiasRunner_st (this : FusedMultiHeadedAttentionRunner)
  : Outcome (option (dnn.LazyOpRunner dnn.FusedMHAScaleBiasSoftmaxOp)
             * FusedMultiHeadedAttentionRunner) :=
  match repr_ this with
  | ScaleBiasSoftmaxPlan p =>
      store ScaleBiasSoftmaxPlan (Returns (unique_ptr_get p))
  | _ =>
      CheckFailure "Check failed: holds_alternative<FusedMHAScaleBiasSoftmaxOp>"
  end.

(** One call on the runner: what the caller sees and the runner after
    the call, both as the member function produced them. *)
Definition step (op : Operation) (this : FusedMultiHeadedAttentionRunner)
  : Outcome (Observation * FusedMultiHeadedAttentionRunner) :=
  let seen {A} (f : A -> Observation)
      (o : Outcome (A * FusedMultiHeadedAttentionRunner)) :=
    map_outcome (fun ar => (f (fst ar), snd ar)) o in
  match op with
  | call_ToAlgorithmDesc => seen saw_algorithm (ToAlgorithmDesc_st this)
  | call_accessor Softmax_accessor =>
      seen (fun p => saw_plan (erase p)) (AsFusedMHASoftmaxRunner_st this)
  | call_accessor Mask_accessor =>
      seen (fun p => saw_plan (erase p)) (AsFusedMHAMaskRunner_st this)
  | call_accessor Bias_accessor =>
      seen (fun p => saw_plan (erase p)) (AsFusedMHABiasRunner_st this)
  | call_accessor BiasMask_accessor =>
      seen (fun p => saw_plan (erase p)) (AsFusedMHABiasMaskRunner_st this)
  end.

(** How a sequence of calls ends. *)
Inductive Ending : Type :=
| ran_to_end
| fatal_check (msg : string)
| undefined_behavior.

(** A sequence of calls on one runner, each on the runner the previous
    call left: the runners after the calls that returned, and how the
    sequence ended.  A fatal check aborts the process; after undefined
    behaviour there is no runner to speak of. *)
Fixpoint run (ops : list Operation) (this : FusedMultiHeadedAttentionRunner)
  : list FusedMultiHeadedAttentionRunner * Ending :=
  match ops with
  | [] => ([], ran_to_end)
  | op :: rest =>
      match step op this with
      | Returns (_, after) =>
          let (later, ending) := run rest after in (after :: later, ending)
      | CheckFailure msg => ([], fatal_check msg)
      | UndefinedBehavior => ([], undefined_behavior)
      end
  end.

(** ** Outcomes and accessors, counted *)

Definition is_returns {A} (o : Outcome A) : bool :=
  match o with Returns _ => true | _ => false end.

Definition all_accessors : list Accessor :=
  [Softmax_accessor; Mask_accessor; Bias_accessor; BiasMask_accessor].

(** The accessors that return on a runner. *)
Definition returning_accessors (this : FusedMultiHeadedAttentionRunner)
  : list Accessor :=
  filter (fun a => is_returns (narrow a this)) all_accessors.

(** ** Sample inputs *)

Definition sample_algorithm : dnn.AlgorithmDesc :=
  dnn.mkAlgorithmDesc 7 true (Some 1024).

Definition sample_shape : Shape := mkShape 10 [2; 4; 16; 8].
Definition sample_dnums : DotDimensionNumbers :=
  mkDotDimensionNumbers [0; 1] [3] [0; 1] [3].

Definition sample_descriptor
  (k : CudnnfMHAKind) (mask_shape bias_shape : option Shape)
  : GpufMHADescriptor :=
  mkGpufMHADescriptor k (mkCudnnfMHABackendConfig (Some 1) None (Some 42))
    sample_shape sample_shape sample_shape sample_shape sample_shape
    sample_dnums sample_dnums mask_shape bias_shape.

Definition sample_matmul : dnn.MatmulTensorDescriptor :=
  dnn.mkMatmulTensorDescriptor (TensorDescriptor_For sample_shape) [0; 1] [3].

Definition sample_config
  (k : CudnnfMHAKind) (mask bias : option dnn.TensorDescriptor)
  : GpufMHAConfig :=
  mkGpufMHAConfig 10 10 k (Some 1) None (Some 42) sample_algorithm
    sample_matmul sample_matmul sample_matmul sample_matmul
    (TensorDescriptor_For sample_shape) mask bias.

Definition sample_buffer : DeviceMemoryBase := mkDeviceMemoryBase 4096 256.
Definition null_buffer : DeviceMemoryBase := mkDeviceMemoryBase 0 0.

(** * Properties *)

(** ** Helper facts *)

Lemma CreateRunner_not_monostate (config : GpufMHAConfig) :
  holds_monostate (CreateRunner config) = false.
Proof. unfold CreateRunner. destruct (kind config); reflexivity. Qed.

Lemma check_initialised_keeps (this this' : FusedMultiHeadedAttentionRunner) :
  check_initialised this = Returns this' ->
  this' = this /\ holds_monostate (repr_ this) = false.
Proof.
  unfold check_initialised.
  destruct (holds_monostate (repr_ this)) eqn:E; intros H.
  - discriminate H.
  - inversion H; subst. split; reflexivity.
Qed.

Lemma Runner_of_Config_returns (config : GpufMHAConfig) :
  Runner_of_Config config = Returns (Runner_of_Repr (CreateRunner config)).
Proof.
  unfold Runner_of_Config, check_initialised. simpl.
  rewrite CreateRunner_not_monostate. reflexivity.
Qed.

Lemma family_none_iff_monostate (r : Repr) :
  family r = None <-> holds_monostate r = true.
Proof. destruct r; simpl; split; intros H; congruence. Qed.

Lemma all_kinds_complete (k : CudnnfMHAKind) : In k all_kinds.
Proof. destruct k; simpl; tauto. Qed.

Lemma CreateRunner_holds_plan (config : GpufMHAConfig) :
  exists plan, held_plan (CreateRunner config) = Some plan.
Proof.
  unfold CreateRunner. destruct (kind config); simpl; eexists; reflexivity.
Qed.

Lemma narrow_on_held (r : Repr) (plan : AnyPlan) :
  held_plan r = Some plan ->
  exists a,
    family r = Some (accessor_family a) /\
    narrow a (Runner_of_Repr r) = Returns (Some plan) /\
    forall a', a' <> a ->
      exists msg, narrow a' (Runner_of_Repr r) = CheckFailure msg.
Proof.
  intros H.
  destruct r as [|p|p|p|p]; simpl in H; [discriminate H| | | |];
    [ exists Softmax_accessor | exists Mask_accessor
    | exists Bias_accessor | exists BiasMask_accessor ];
    (split; [reflexivity|]);
    (split; [simpl; unfold get in *; rewrite H; reflexivity|]);
    intros a' Hne; destruct a'; try (exfalso; apply Hne; reflexivity);
    simpl; eexists; reflexivity.
Qed.

(** ** CreateRunner *)

(** C1: [CreateRunner] maps the kind of the configuration to one plan
    family: kBmmBmm, kSoftmax and kSoftmaxDropout give a FusedMHASoftmaxOp
    plan; kScaleBiasSoftmax and its dropout kind a
    FusedMHAScaleBiasSoftmaxOp plan; kScaleMaskSoftmax and its dropout kind
    a FusedMHAScaleMaskSoftmaxOp plan; kScaleBiasMaskSoftmax and its
    dropout kind a FusedMHAScaleBiasMaskSoftmaxOp plan.  The plan is built
    from the algorithm of the configuration. *)
Theorem CreateRunner_family_mapping :
  (forall config,
      In (kind config) [kBmmBmm; kSoftmax; kSoftmaxDropout] ->
      CreateRunner config =
      SoftmaxPlan (make_unique
        (dnn.mkLazyOpRunner dnn.FusedMHASoftmaxOp (algorithm config)))) /\
  (forall config,
      In (kind config) [kScaleBiasSoftmax; kScaleBiasSoftmaxDropout] ->
      CreateRunner config =
      ScaleBiasSoftmaxPlan (make_unique
        (dnn.mkLazyOpRunner dnn.FusedMHAScaleBiasSoftmaxOp
           (algorithm config)))) /\
  (forall config,
      In (kind config) [kScaleMaskSoftmax; kScaleMaskSoftmaxDropout] ->
      CreateRunner config =
      ScaleMaskSoftmaxPlan (make_unique
        (dnn.mkLazyOpRunner dnn.FusedMHAScaleMaskSoftmaxOp
           (algorithm config)))) /\
  (forall config,
      In (kind config) [kScaleBiasMaskSoftmax; kScaleBiasMaskSoftmaxDropout] ->
      CreateRunner config =
      ScaleBiasMaskSoftmaxPlan (make_unique
        (dnn.mkLazyOpRunner dnn.FusedMHAScaleBiasMaskSoftmaxOp
           (algorithm config)))).
Proof.
  split; [|split; [|split]]; intros config Hin; unfold CreateRunner;
    simpl in Hin;
    repeat (destruct Hin as [<- | Hin]; [reflexivity|]); contradiction.
Qed.

Lemma CreateRunner_family_mapping_witness :
  CreateRunner (sample_config kSoftmaxDropout None None) =
    SoftmaxPlan (Some (dnn.mkLazyOpRunner _ sample_algorithm)) /\
  CreateRunner (sample_config kScaleBiasSoftmax None None) =
    ScaleBiasSoftmaxPlan (Some (dnn.mkLazyOpRunner _ sample_algorithm)) /\
  CreateRunner (sample_config kScaleMaskSoftmaxDropout None None) =
    ScaleMaskSoftmaxPlan (Some (dnn.mkLazyOpRunner _ sample_algorithm)) /\
  CreateRunner (sample_config kScaleBiasMaskSoftmax None None) =
    ScaleBiasMaskSoftmaxPlan (Some (dnn.mkLazyOpRunner _ sample_algorithm)).
Proof.
  destruct CreateRunner_family_mapping as (H1 & H2 & H3 & H4).
  split; [|split; [|split]].
  - apply (H1 (sample_config kSoftmaxDropout None None)). simpl. tauto.
  - apply (H2 (sample_config kScaleBiasSoftmax None None)). simpl. tauto.
  - apply (H3 (sample_config kScaleMaskSoftmaxDropout None None)).
    simpl. tauto.
  - apply (H4 (sample_config kScaleBiasMaskSoftmax None None)). simpl. tauto.
Defined.





(** ** Narrowing accessors *)

(** C3: for every kind, on the runner built from a configuration of that
    kind exactly one of the four narrowing accessors returns, and it
    returns the plan the runner holds (not null); each of the other three
    is a fatal check failure. *)
Theorem exactly_one_accessor_succeeds (config : GpufMHAConfig) :
  exists this a plan,
    Runner_of_Config config = Returns this /\
    repr_ this = CreateRunner config /\
    family (repr_ this) = Some (accessor_family a) /\
    narrow a this = Returns (Some plan) /\
    held_plan (repr_ this) = Some plan /\
    forall a', a' <> a -> exists msg, narrow a' this = CheckFailure msg.
Proof.
  destruct (CreateRunner_holds_plan config) as [plan Hplan].
  destruct (narrow_on_held (CreateRunner config) Hplan) as (a & Hfam & Hnar & Hoth).
  exists (Runner_of_Repr (CreateRunner config)), a, plan.
  split; [apply Runner_of_Config_returns|].
  split; [reflexivity|].
  split; [exact Hfam|].
  split; [exact Hnar|].
  split; [exact Hplan|].
  exact Hoth.
Qed.

(** ** Construction and the uninitialised state *)

(** C6: the constructor that takes a configuration never yields a runner
    holding [monostate]: on a variant that is [monostate] its body is a
    fatal check failure, and every runner it returns holds one of the four
    plan families. *)
Theorem Config_constructor_never_uninitialised :
  (forall r : Repr,
      holds_monostate r = true ->
      check_initialised (Runner_of_Repr r) =
      CheckFailure
        "Cannot construct FusedMultiHeadedAttentionRunner with std::monostate")
  /\
  (forall config this,
      Runner_of_Config config = Returns this ->
      holds_monostate (repr_ this) = false /\
      exists Op, family (repr_ this) = Some Op).
Proof.
  split.
  - intros r Hr. unfold check_initialised. simpl. rewrite Hr. reflexivity.
  - intros config this H.
    apply check_initialised_keeps in H. destruct H as [-> Hm].
    split; [exact Hm|].
    destruct (family (repr_ (Runner_of_Repr (CreateRunner config)))) as [Op|] eqn:E.
    + exists Op. reflexivity.
    + apply family_none_iff_monostate in E. congruence.
Qed.

Lemma Config_constructor_never_uninitialised_witness :
  check_initialised (Runner_of_Repr monostate) =
    CheckFailure
      "Cannot construct FusedMultiHeadedAttentionRunner with std::monostate"
  /\
  (holds_monostate
     (repr_ (Runner_of_Repr
               (CreateRunner (sample_config kScaleMaskSoftmax None None))))
   = false /\
   exists Op,
     family (repr_ (Runner_of_Repr
               (CreateRunner (sample_config kScaleMaskSoftmax None None))))
     = Some Op).
Proof.
  destruct Config_constructor_never_uninitialised as [Hfatal Hheld].
  split.
  - apply (Hfatal monostate). reflexivity.
  - apply (Hheld (sample_config kScaleMaskSoftmax None None)). reflexivity.
Defined.

(** A plan constructor accepts a null pointer; the variant then holds a
    plan family, the accessor returns the null pointer, and
    [ToAlgorithmDesc] dereferences it. *)
Example null_plan_pointer :
  family (repr_ (Runner_of_Softmax nullptr)) = Some dnn.FusedMHASoftmaxOp /\
  AsFusedMHASoftmaxRunner (Runner_of_Softmax nullptr) = Returns None /\
  ToAlgorithmDesc (Runner_of_Softmax nullptr) = UndefinedBehavior.
Proof. split; [|split]; reflexivity. Qed.

(** A sequence runs until the first fatal check: three calls complete on
    a bias runner before the mask accessor aborts. *)
Example states_until_fatal_check :
  states [call_ToAlgorithmDesc; call_accessor Bias_accessor;
          call_ToAlgorithmDesc; call_accessor Mask_accessor;
          call_ToAlgorithmDesc]
    (Runner_of_Repr (CreateRunner (sample_config kScaleBiasSoftmax None None)))
  = repeat
      (Runner_of_Repr
         (CreateRunner (sample_config kScaleBiasSoftmax None None))) 3.
Proof. reflexivity. Qed.

(** C7: on a default-constructed runner, which holds [monostate], each of
    the four narrowing accessors and [ToAlgorithmDesc] is a fatal check
    failure. *)
Theorem default_runner_use_is_fatal :
  repr_ Runner_default = monostate /\
  ToAlgorithmDesc Runner_default =
    CheckFailure "Internal error: uninitialized runner in ToAlgorithmDesc" /\
  is_check_failure (AsFusedMHASoftmaxRunner Runner_default) = true /\
  is_check_failure (AsFusedMHAMaskRunner Runner_default) = true /\
  is_check_failure (AsFusedMHABiasRunner Runner_default) = true /\
  is_check_failure (AsFusedMHABiasMaskRunner Runner_default) = true /\
  (forall op, exists msg, apply op Runner_default = CheckFailure msg).
Proof.
  do 6 (split; [reflexivity|]).
  intros [|[| | |]]; simpl; eexists; reflexivity.
Qed.

(** C8: [ToAlgorithmDesc] on the runner built from a configuration returns
    the algorithm of that configuration. *)
Theorem ToAlgorithmDesc_of_built_runner (config : GpufMHAConfig) :
  exists this,
    Runner_of_Config config = Returns this /\
    ToAlgorithmDesc this = Returns (algorithm config).
Proof.
  exists (Runner_of_Repr (CreateRunner config)).
  split; [apply Runner_of_Config_returns|].
  unfold ToAlgorithmDesc, CreateRunner. simpl.
  destruct (kind config); reflexivity.
Qed.

Lemma step_keeps_runner
  (op : Operation) (this after : FusedMultiHeadedAttentionRunner)
  (obs : Observation) :
  step op this = Returns (obs, after) -> after = this.
Proof.
  destruct this as [r].
  destruct op as [|[| | |]];
    destruct r as [|[q|]|[q|]|[q|]|[q|]]; simpl; intros H;
    try discriminate H; inversion H; reflexivity.
Qed.

Lemma step_check_failure
  (op : Operation) (this : FusedMultiHeadedAttentionRunner) (msg : string) :
  step op this = CheckFailure msg ->
  holds_monostate (repr_ this) = true \/
  exists a, op = call_accessor a /\
            family (repr_ this) <> Some (accessor_family a).
Proof.
  destruct this as [r].
  destruct op as [|a].
  - destruct r as [|[q|]|[q|]|[q|]|[q|]]; simpl; intros H;
      try discriminate H. left. reflexivity.
  - intros H. right. exists a. split; [reflexivity|].
    destruct a; destruct r as [|[q|]|[q|]|[q|]|[q|]]; simpl in *;
      try discriminate H; intros E; discriminate E.
Qed.

Lemma step_undefined
  (op : Operation) (this : FusedMultiHeadedAttentionRunner) :
  step op this = UndefinedBehavior ->
  op = call_ToAlgorithmDesc /\ held_plan (repr_ this) = None.
Proof.
  destruct this as [r].
  destruct op as [|[| | |]];
    destruct r as [|[q|]|[q|]|[q|]|[q|]]; simpl; intros H;
    try discriminate H; split; reflexivity.
Qed.

(** The state-passing member functions show what the readers do. *)
Lemma step_agrees_with_apply
  (op : Operation) (this : FusedMultiHeadedAttentionRunner) :
  step op this = apply op this.
Proof.
  destruct this as [r].
  destruct op as [|[| | |]];
    destruct r as [|[q|]|[q|]|[q|]|[q|]]; reflexivity.
Qed.

(** C9: a runner that holds one of the four plan families holds the same
    variant, a plan family still, after every call of any sequence of
    [ToAlgorithmDesc] and narrowing-accessor calls: each of the five
    member functions leaves [repr_] as it found it.  A sequence runs to
    its end unless an accessor of another family is called, which is a
    fatal check, or [ToAlgorithmDesc] is called while the held pointer is
    null, which has no defined behaviour. *)
Theorem held_variant_never_changes
  (ops : list Operation) (this : FusedMultiHeadedAttentionRunner) :
  holds_monostate (repr_ this) = false ->
  Forall (fun after =>
            repr_ after = repr_ this /\ holds_monostate (repr_ after) = false)
         (fst (run ops this)) /\
  match snd (run ops this) with
  | ran_to_end => List.length (fst (run ops this)) = List.length ops
  | fatal_check _ =>
      exists a, In (call_accessor a) ops /\
                family (repr_ this) <> Some (accessor_family a)
  | undefined_behavior =>
      In call_ToAlgorithmDesc ops /\ held_plan (repr_ this) = None
  end.
Proof.
  intros Hheld.
  induction ops as [|op rest IH]; simpl.
  - split; [constructor | reflexivity].
  - destruct (step op this) as [[obs after]|msg|] eqn:E.
    + apply step_keeps_runner in E. subst after.
      destruct (run rest this) as [later ending]. simpl in *.
      destruct IH as [IHstates IHend].
      split.
      * constructor; [split; [reflexivity | exact Hheld] | exact IHstates].
      * destruct ending.
        -- rewrite IHend. reflexivity.
        -- destruct IHend as (a & Hin & Hfam). exists a. tauto.
        -- destruct IHend as [Hin Hnull]. tauto.
    + simpl. split; [constructor|].
      apply step_check_failure in E. destruct E as [E | (a & -> & Hfam)].
      * congruence.
      * exists a. split; [left; reflexivity | exact Hfam].
    + simpl. split; [constructor|].
      apply step_undefined in E. destruct E as [-> Hnull].
      split; [left; reflexivity | exact Hnull].
Qed.

Lemma held_variant_never_changes_witness :
  holds_monostate
    (repr_ (Runner_of_Repr
              (CreateRunner (sample_config kScaleBiasSoftmax None None))))
    = false /\
  run [call_ToAlgorithmDesc; call_accessor Bias_accessor;
       call_ToAlgorithmDesc; call_accessor Mask_accessor;
       call_ToAlgorithmDesc]
    (Runner_of_Repr (CreateRunner (sample_config kScaleBiasSoftmax None None)))
  = (repeat
       (Runner_of_Repr
          (CreateRunner (sample_config kScaleBiasSoftmax None None))) 3,
     fatal_check
       "Check failed: holds_alternative<FusedMHAScaleMaskSoftmaxOp>") /\
  Forall
    (fun after =>
       repr_ after
       = repr_ (Runner_of_Repr
                  (CreateRunner (sample_config kScaleBiasSoftmax None None)))
       /\ holds_monostate (repr_ after) = false)
    (fst (run [call_ToAlgorithmDesc; call_accessor Bias_accessor;
               call_ToAlgorithmDesc; call_accessor Mask_accessor;
               call_ToAlgorithmDesc]
            (Runner_of_Repr
               (CreateRunner (sample_config kScaleBiasSoftmax None None))))).
Proof.
  split; [reflexivity|]. split; [reflexivity|].
  apply (@held_variant_never_changes
           [call_ToAlgorithmDesc; call_accessor Bias_accessor;
            call_ToAlgorithmDesc; call_accessor Mask_accessor;
            call_ToAlgorithmDesc]
           (Runner_of_Repr
              (CreateRunner (sample_config kScaleBiasSoftmax None None)))).
  reflexivity.
Defined.

(** C10: the public constructor that takes a [Repr] accepts a [Repr]
    holding [monostate] and performs no check: it yields an uninitialised
    runner, equal to the default-constructed one, and for every [Repr] the
    runner holds exactly what was passed.  The constructors that take a
    plan pointer cannot produce [monostate].  The check against
    [monostate] is in the body of the constructor that takes a
    configuration only. *)
Theorem Repr_constructor_admits_monostate :
  Runner_of_Repr monostate = Runner_default /\
  holds_monostate (repr_ (Runner_of_Repr monostate)) = true /\
  (forall r, repr_ (Runner_of_Repr r) = r) /\
  (forall p, holds_monostate (repr_ (Runner_of_Softmax p)) = false) /\
  (forall p, holds_monostate (repr_ (Runner_of_ScaleMaskSoftmax p)) = false) /\
  (forall p, holds_monostate (repr_ (Runner_of_ScaleBiasSoftmax p)) = false) /\
  (forall p,
      holds_monostate (repr_ (Runner_of_ScaleBiasMaskSoftmax p)) = false) /\
  is_check_failure (check_initialised (Runner_of_Repr monostate)) = true /\
  (forall config, exists this, Runner_of_Config config = Returns this /\
                               holds_monostate (repr_ this) = false).
Proof.
  do 2 (split; [reflexivity|]).
  do 5 (split; [intros; reflexivity|]).
  split; [reflexivity|].
  intros config. exists (Runner_of_Repr (CreateRunner config)).
  split; [apply Runner_of_Config_returns|].
  apply CreateRunner_not_monostate.
Qed.

(** ** The configuration normalizer *)

Lemma bind_Err {A B} (r : StatusOr A) (k : A -> StatusOr B) (s : Status) :
  r = Err s -> bind r k = Err s.
Proof. intros ->. reflexivity. Qed.

Lemma MatmulTensorDescriptor_For_error
  (shape : Shape) (batch_dims contracting_dims : list Z) (s : Status) :
  MatmulTensorDescriptor_For shape batch_dims contracting_dims = Err s ->
  is_configuration_error s = true.
Proof.
  unfold MatmulTensorDescriptor_For.
  destruct (_ <=? _)%nat; intros H; inversion H; reflexivity.
Qed.

Lemma check_optional_shape_error
  (o : OptionalOperand) (required : bool) (shape : option Shape) (s : Status) :
  check_optional_shape o required shape = Err s ->
  is_configuration_error s = true.
Proof.
  destruct required, shape; simpl; intros H; inversion H; reflexivity.
Qed.

(** Every error of the normalizer is a configuration error. *)
Lemma GpufMHAConfig_For_error
  (alg : dnn.AlgorithmDesc) (d : GpufMHADescriptor) (s : Status) :
  GpufMHAConfig_For alg d = Err s -> is_configuration_error s = true.
Proof.
  unfold GpufMHAConfig_For.
  destruct (check_optional_shape MaskOperand _ _) eqn:E1; simpl;
    [|intros H; inversion H; subst; eapply check_optional_shape_error; eauto].
  destruct (check_optional_shape BiasOperand _ _) eqn:E2; simpl;
    [|intros H; inversion H; subst; eapply check_optional_shape_error; eauto].
  repeat
    match goal with
    | |- bind (MatmulTensorDescriptor_For ?sh ?b ?c) _ = _ -> _ =>
        let E := fresh "E" in
        destruct (MatmulTensorDescriptor_For sh b c) eqn:E; simpl;
        [|intros H; inversion H; subst;
          eapply MatmulTensorDescriptor_For_error; eauto]
    end.
  intros H; discriminate H.
Qed.

(** The normalizer fails as soon as one presence check does. *)
Lemma GpufMHAConfig_For_presence
  (alg : dnn.AlgorithmDesc) (d : GpufMHADescriptor) :
  (exists s, check_optional_shape MaskOperand
               (requires_mask (desc_kind d)) (mask_shape d) = Err s) \/
  (exists s, check_optional_shape BiasOperand
               (requires_bias (desc_kind d)) (bias_shape d) = Err s) ->
  exists s, GpufMHAConfig_For alg d = Err s /\
            is_configuration_error s = true.
Proof.
  intros H.
  assert (exists s, GpufMHAConfig_For alg d = Err s) as [s Hs].
  { unfold GpufMHAConfig_For.
    destruct H as [[s H]|[s H]].
    - rewrite H. exists s. reflexivity.
    - destruct (check_optional_shape MaskOperand _ _) as [u|s'].
      + simpl. rewrite H. exists s. reflexivity.
      + exists s'. reflexivity. }
  exists s. split; [exact Hs|]. eapply GpufMHAConfig_For_error; eauto.
Qed.

(** C4: when the kind requires a mask (respectively a bias) shape and the
    shape is absent, [GpufMHAConfig::For] fails; when the kind does not
    require it and the shape is present, it fails; the failure is a
    configuration error, and a failed call carries no configuration. *)
Theorem GpufMHAConfig_For_optional_operands (alg : dnn.AlgorithmDesc) :
  (forall d,
      requires_mask (desc_kind d) = true -> mask_shape d = None ->
      exists s, GpufMHAConfig_For alg d = Err s /\
                is_configuration_error s = true) /\
  (forall d,
      requires_bias (desc_kind d) = true -> bias_shape d = None ->
      exists s, GpufMHAConfig_For alg d = Err s /\
                is_configuration_error s = true) /\
  (forall d,
      requires_mask (desc_kind d) = false -> is_some (mask_shape d) = true ->
      exists s, GpufMHAConfig_For alg d = Err s /\
                is_configuration_error s = true) /\
  (forall d,
      requires_bias (desc_kind d) = false -> is_some (bias_shape d) = true ->
      exists s, GpufMHAConfig_For alg d = Err s /\
                is_configuration_error s = true) /\
  (forall d,
      ok (GpufMHAConfig_For alg d) = false ->
      value_of (GpufMHAConfig_For alg d) = None).
Proof.
  split; [|split; [|split; [|split]]].
  - intros d Hreq Habs. apply GpufMHAConfig_For_presence. left.
    rewrite Hreq, Habs. eexists. reflexivity.
  - intros d Hreq Habs. apply GpufMHAConfig_For_presence. right.
    rewrite Hreq, Habs. eexists. reflexivity.
  - intros d Hreq Hpres. apply GpufMHAConfig_For_presence. left.
    rewrite Hreq. destruct (mask_shape d); [|discriminate Hpres].
    eexists. reflexivity.
  - intros d Hreq Hpres. apply GpufMHAConfig_For_presence. right.
    rewrite Hreq. destruct (bias_shape d); [|discriminate Hpres].
    eexists. reflexivity.
  - intros d. destruct (GpufMHAConfig_For alg d); simpl.
    + intros H; discriminate H.
    + reflexivity.
Qed.

Lemma GpufMHAConfig_For_optional_operands_witness :
  (exists s,
      GpufMHAConfig_For sample_algorithm
        (sample_descriptor kScaleMaskSoftmax None None) = Err s /\
      is_configuration_error s = true) /\
  (exists s,
      GpufMHAConfig_For sample_algorithm
        (sample_descriptor kScaleBiasSoftmaxDropout None None) = Err s /\
      is_configuration_error s = true) /\
  (exists s,
      GpufMHAConfig_For sample_algorithm
        (sample_descriptor kSoftmax (Some sample_shape) None) = Err s /\
      is_configuration_error s = true) /\
  (exists s,
      GpufMHAConfig_For sample_algorithm
        (sample_descriptor kScaleMaskSoftmax (Some sample_shape)
           (Some sample_shape)) = Err s /\
      is_configuration_error s = true) /\
  value_of (GpufMHAConfig_For sample_algorithm
              (sample_descriptor kBmmBmm None (Some sample_shape))) = None.
Proof.
  destruct (GpufMHAConfig_For_optional_operands sample_algorithm)
    as (Hm & Hb & Hum & Hub & Hnone).
  split; [|split; [|split; [|split]]].
  - apply (Hm (sample_descriptor kScaleMaskSoftmax None None)); reflexivity.
  - apply (Hb (sample_descriptor kScaleBiasSoftmaxDropout None None));
      reflexivity.
  - apply (Hum (sample_descriptor kSoftmax (Some sample_shape) None));
      reflexivity.
  - apply (Hub (sample_descriptor kScaleMaskSoftmax (Some sample_shape)
                  (Some sample_shape))); reflexivity.
  - apply (Hnone (sample_descriptor kBmmBmm None (Some sample_shape))).
    reflexivity.
Defined.

(** The normalizer succeeds on a well-formed descriptor: the presence
    checks do not reject everything. *)
Example GpufMHAConfig_For_ScaleMaskSoftmax :
  GpufMHAConfig_For sample_algorithm
    (sample_descriptor kScaleMaskSoftmax (Some sample_shape) None)
  = Ok (sample_config kScaleMaskSoftmax
          (Some (TensorDescriptor_For sample_shape)) None).
Proof. reflexivity. Qed.

(** ** The parameter binder *)

(** C5: for a buffer set that matches the configuration,
    [GpufMHAParams::For] succeeds and the optional mask (respectively bias)
    buffer of the result is present exactly when the configuration has the
    mask (respectively bias) descriptor; for a buffer set that does not
    match, it fails with a binding error, returned to the caller. *)
Theorem GpufMHAParams_For_buffer_presence :
  (forall config lhs1 rhs1 rhs2 out mask_buf bias_buf,
      buffers_match config mask_buf bias_buf = true ->
      exists params,
        GpufMHAParams_For config lhs1 rhs1 rhs2 out mask_buf bias_buf
          = Ok params /\
        (mask_buffer params <> None <-> mask config <> None) /\
        (bias_buffer params <> None <-> bias config <> None)) /\
  (forall config lhs1 rhs1 rhs2 out mask_buf bias_buf,
      buffers_match config mask_buf bias_buf = false ->
      exists s,
        GpufMHAParams_For config lhs1 rhs1 rhs2 out mask_buf bias_buf
          = Err s /\
        is_binding_error s = true).
Proof.
  split; intros config lhs1 rhs1 rhs2 out mask_buf bias_buf H;
    unfold buffers_match in H; unfold GpufMHAParams_For, bind_optional_buffer;
    destruct (mask config) as [dm|], (bias config) as [db|],
             (is_null mask_buf), (is_null bias_buf);
    simpl in H; try discriminate H; simpl.
  all: try (eexists; split; [reflexivity|]; simpl;
            split; split; intros; congruence).
  all: eexists; split; reflexivity.
Qed.

Lemma GpufMHAParams_For_buffer_presence_witness :
  (exists params,
      GpufMHAParams_For
        (sample_config kScaleMaskSoftmax
           (Some (TensorDescriptor_For sample_shape)) None)
        sample_buffer sample_buffer sample_buffer sample_buffer
        sample_buffer null_buffer = Ok params /\
      (mask_buffer params <> None <->
       mask (sample_config kScaleMaskSoftmax
               (Some (TensorDescriptor_For sample_shape)) None) <> None) /\
      (bias_buffer params <> None <->
       bias (sample_config kScaleMaskSoftmax
               (Some (TensorDescriptor_For sample_shape)) None) <> None)) /\
  (exists s,
      GpufMHAParams_For (sample_config kSoftmax None None)
        sample_buffer sample_buffer sample_buffer sample_buffer
        null_buffer sample_buffer = Err s /\
      is_binding_error s = true).
Proof.
  destruct GpufMHAParams_For_buffer_presence as [Hmatch Hmismatch].
  split.
  - apply (Hmatch
             (sample_config kScaleMaskSoftmax
                (Some (TensorDescriptor_For sample_shape)) None)
             sample_buffer sample_buffer sample_buffer sample_buffer
             sample_buffer null_buffer).
    reflexivity.
  - apply (Hmismatch (sample_config kSoftmax None None)
             sample_buffer sample_buffer sample_buffer sample_buffer
             null_buffer sample_buffer).
    reflexivity.
Defined.

(** * Further properties of the runner *)

(** ** Plan constructors and accessors *)

(** X1: each constructor that takes a plan pointer round-trips through
    the accessor of its family: the accessor returns the very pointer the
    runner was constructed with, null included, and each accessor of
    another family is a fatal check failure. *)
Theorem plan_constructor_round_trip :
  (forall p,
      AsFusedMHASoftmaxRunner (Runner_of_Softmax p) = Returns p /\
      is_check_failure (AsFusedMHAMaskRunner (Runner_of_Softmax p)) = true /\
      is_check_failure (AsFusedMHABiasRunner (Runner_of_Softmax p)) = true /\
      is_check_failure (AsFusedMHABiasMaskRunner (Runner_of_Softmax p))
        = true) /\
  (forall p,
      AsFusedMHAMaskRunner (Runner_of_ScaleMaskSoftmax p) = Returns p /\
      is_check_failure
        (AsFusedMHASoftmaxRunner (Runner_of_ScaleMaskSoftmax p)) = true /\
      is_check_failure
        (AsFusedMHABiasRunner (Runner_of_ScaleMaskSoftmax p)) = true /\
      is_check_failure
        (AsFusedMHABiasMaskRunner (Runner_of_ScaleMaskSoftmax p)) = true) /\
  (forall p,
      AsFusedMHABiasMaskRunner (Runner_of_ScaleBiasMaskSoftmax p)
        = Returns p /\
      is_check_failure
        (AsFusedMHASoftmaxRunner (Runner_of_ScaleBiasMaskSoftmax p)) = true /\
      is_check_failure
        (AsFusedMHAMaskRunner (Runner_of_ScaleBiasMaskSoftmax p)) = true /\
      is_check_failure
        (AsFusedMHABiasRunner (Runner_of_ScaleBiasMaskSoftmax p)) = true) /\
  (forall p,
      AsFusedMHABiasRunner (Runner_of_ScaleBiasSoftmax p) = Returns p /\
      is_check_failure
        (AsFusedMHASoftmaxRunner (Runner_of_ScaleBiasSoftmax p)) = true /\
      is_check_failure
        (AsFusedMHAMaskRunner (Runner_of_ScaleBiasSoftmax p)) = true /\
      is_check_failure
        (AsFusedMHABiasMaskRunner (Runner_of_ScaleBiasSoftmax p)) = true).
Proof.
  split; [|split; [|split]]; intros p;
    (split; [|split; [|split]]); reflexivity.
Qed.

Lemma narrow_by_family
  (this : FusedMultiHeadedAttentionRunner) (a : Accessor) :
  (family (repr_ this) = Some (accessor_family a) /\
   narrow a this = Returns (held_plan (repr_ this))) \/
  (family (repr_ this) <> Some (accessor_family a) /\
   is_check_failure (narrow a this) = true).
Proof.
  destruct this as [r].
  destruct r as [|p|p|p|p], a; simpl;
    try (left; split; reflexivity);
    right; (split; [intros H; discriminate H | reflexivity]).
Qed.

(** X2: on any runner, however constructed, an accessor returns exactly
    when the variant holds the accessor's family, and it then returns the
    pointer of the held plan; otherwise it is a fatal check failure.  An
    accessor never has an undefined outcome. *)
Theorem accessor_outcome_by_family
  (this : FusedMultiHeadedAttentionRunner) (a : Accessor) :
  ((family (repr_ this) = Some (accessor_family a) /\
    narrow a this = Returns (held_plan (repr_ this))) \/
   (family (repr_ this) <> Some (accessor_family a) /\
    is_check_failure (narrow a this) = true)) /\
  narrow a this <> UndefinedBehavior.
Proof.
  split; [apply narrow_by_family|].
  destruct (narrow_by_family this a) as [[_ H]|[_ H]]; rewrite ?H.
  - discriminate.
  - intros E. rewrite E in H. discriminate H.
Qed.

(** X3: on any runner, exactly one of the four accessors returns when the
    runner holds a plan family, and none does when it holds
    [monostate]. *)
Theorem number_of_returning_accessors
  (this : FusedMultiHeadedAttentionRunner) :
  List.length (returning_accessors this)
  = if holds_monostate (repr_ this) then 0%nat else 1%nat.
Proof.
  destruct this as [r]. destruct r as [|p|p|p|p]; reflexivity.
Qed.

(** ** ToAlgorithmDesc on any runner *)

(** X4: the three outcomes of [ToAlgorithmDesc]: on [monostate] it is the
    fatal check of the visitor; on a plan family whose pointer is null the
    visitor dereferences null; on a held plan it returns the descriptor of
    that plan, whose family is the one the variant holds. *)
Theorem ToAlgorithmDesc_outcome (this : FusedMultiHeadedAttentionRunner) :
  match family (repr_ this), held_plan (repr_ this) with
  | None, _ =>
      ToAlgorithmDesc this =
      CheckFailure "Internal error: uninitialized runner in ToAlgorithmDesc"
  | Some _, None => ToAlgorithmDesc this = UndefinedBehavior
  | Some Op, Some plan =>
      projT1 plan = Op /\
      ToAlgorithmDesc this = Returns (dnn.ToAlgorithmDesc (projT2 plan))
  end.
Proof.
  destruct this as [r].
  destruct r as [|[plan|]|[plan|]|[plan|]|[plan|]]; simpl;
    try reflexivity; split; reflexivity.
Qed.

Lemma ToAlgorithmDesc_returns_on_plan
  (this : FusedMultiHeadedAttentionRunner) (a : Accessor) (plan : AnyPlan) :
  narrow a this = Returns (Some plan) ->
  ToAlgorithmDesc this = Returns (dnn.ToAlgorithmDesc (projT2 plan)).
Proof.
  destruct this as [r].
  destruct r as [|[q|]|[q|]|[q|]|[q|]], a; simpl; intros H;
    try discriminate H; inversion H; reflexivity.
Qed.

(** X5: the descriptor the runner reports is the descriptor of the plan an
    accessor hands out: whenever an accessor returns a plan that is not
    null, [ToAlgorithmDesc] returns that plan's descriptor. *)
Theorem ToAlgorithmDesc_of_narrowed_plan
  (this : FusedMultiHeadedAttentionRunner) (a : Accessor) (plan : AnyPlan) :
  narrow a this = Returns (Some plan) ->
  ToAlgorithmDesc this = Returns (dnn.ToAlgorithmDesc (projT2 plan)).
Proof. apply ToAlgorithmDesc_returns_on_plan. Qed.

Lemma ToAlgorithmDesc_of_narrowed_plan_witness :
  narrow Mask_accessor
    (Runner_of_ScaleMaskSoftmax
       (make_unique (dnn.mkLazyOpRunner _ sample_algorithm)))
  = Returns
      (Some (existT _ dnn.FusedMHAScaleMaskSoftmaxOp
               (dnn.mkLazyOpRunner _ sample_algorithm))) /\
  ToAlgorithmDesc
    (Runner_of_ScaleMaskSoftmax
       (make_unique (dnn.mkLazyOpRunner _ sample_algorithm)))
  = Returns sample_algorithm.
Proof.
  split; [reflexivity|].
  apply (@ToAlgorithmDesc_of_narrowed_plan
           (Runner_of_ScaleMaskSoftmax
              (make_unique (dnn.mkLazyOpRunner _ sample_algorithm)))
           Mask_accessor
           (existT _ dnn.FusedMHAScaleMaskSoftmaxOp
              (dnn.mkLazyOpRunner _ sample_algorithm))).
  reflexivity.
Defined.

(** ** What CreateRunner reads *)

(** X6: [CreateRunner] reads the kind and the algorithm only.  Two
    configurations whose kinds are case labels of the same family and whose
    algorithms are equal give the same variant, whatever their shapes,
    scale, dropout rate, seed, mask and bias are; in particular a
    dropout kind gives the plan of its kind without dropout. *)
Theorem CreateRunner_reads_kind_and_algorithm
  (c1 c2 : GpufMHAConfig) (Op : dnn.FusedMHAOp) :
  In (kind c1) (case_labels Op) ->
  In (kind c2) (case_labels Op) ->
  algorithm c1 = algorithm c2 ->
  CreateRunner c1 = CreateRunner c2.
Proof.
  intros H1 H2 Halg. unfold CreateRunner. rewrite Halg.
  destruct Op; simpl in H1, H2;
    repeat (destruct H1 as [<- | H1]; [|]); try contradiction;
    repeat (destruct H2 as [<- | H2]; [|]); try contradiction;
    reflexivity.
Qed.

Lemma CreateRunner_reads_kind_and_algorithm_witness :
  CreateRunner
    (mkGpufMHAConfig 10 10 kScaleMaskSoftmax None None None sample_algorithm
       sample_matmul sample_matmul sample_matmul sample_matmul
       (TensorDescriptor_For sample_shape)
       (Some (TensorDescriptor_For sample_shape)) None)
  = CreateRunner
      (mkGpufMHAConfig 11 12 kScaleMaskSoftmaxDropout (Some 3) (Some 5)
         (Some 42) sample_algorithm
         sample_matmul sample_matmul sample_matmul sample_matmul
         (TensorDescriptor_For (mkShape 11 [1; 1])) None None).
Proof.
  apply (@CreateRunner_reads_kind_and_algorithm _ _
           dnn.FusedMHAScaleMaskSoftmaxOp).
  - simpl. tauto.
  - simpl. tauto.
  - reflexivity.
Defined.

(** X7: conversely, two configurations that give the same variant have the
    same algorithm and kinds that are case labels of one family: plans of
    different families, or for different algorithms, are never equal. *)
Theorem CreateRunner_equal_inversion (c1 c2 : GpufMHAConfig) :
  CreateRunner c1 = CreateRunner c2 ->
  algorithm c1 = algorithm c2 /\
  exists Op, In (kind c1) (case_labels Op) /\ In (kind c2) (case_labels Op).
Proof.
  unfold CreateRunner.
  destruct (kind c1), (kind c2); intros H; try discriminate H;
    (split; [unfold make_unique in H; congruence|]);
    first
      [ exists dnn.FusedMHASoftmaxOp; simpl; tauto
      | exists dnn.FusedMHAScaleBiasSoftmaxOp; simpl; tauto
      | exists dnn.FusedMHAScaleMaskSoftmaxOp; simpl; tauto
      | exists dnn.FusedMHAScaleBiasMaskSoftmaxOp; simpl; tauto ].
Qed.

Lemma CreateRunner_equal_inversion_witness :
  algorithm (sample_config kBmmBmm None None)
  = algorithm (sample_config kSoftmaxDropout None None) /\
  exists Op,
    In (kind (sample_config kBmmBmm None None)) (case_labels Op) /\
    In (kind (sample_config kSoftmaxDropout None None)) (case_labels Op).
Proof.
  apply (@CreateRunner_equal_inversion
           (sample_config kBmmBmm None None)
           (sample_config kSoftmaxDropout None None)).
  reflexivity.
Defined.

(** ** Sequences of calls *)

(** X8: on a runner whose plan is not null, every sequence made of
    [ToAlgorithmDesc] and the accessor of the held family runs to its end:
    after each of its calls the runner is the one it started as. *)
Theorem matching_calls_all_complete
  (this : FusedMultiHeadedAttentionRunner) (a : Accessor) (plan : AnyPlan)
  (ops : list Operation) :
  narrow a this = Returns (Some plan) ->
  Forall (fun op => op = call_ToAlgorithmDesc \/ op = call_accessor a) ops ->
  states ops this = repeat this (List.length ops).
Proof.
  intros Hnar Hops.
  pose proof (@ToAlgorithmDesc_returns_on_plan this a plan Hnar) as Hdesc.
  induction Hops as [|op rest Hop Hrest IH]; simpl.
  - reflexivity.
  - destruct Hop as [-> | ->]; simpl.
    + rewrite Hdesc. simpl. rewrite IH. reflexivity.
    + rewrite Hnar. simpl. rewrite IH. reflexivity.
Qed.

Lemma matching_calls_all_complete_witness :
  states [call_accessor BiasMask_accessor; call_ToAlgorithmDesc;
          call_accessor BiasMask_accessor]
    (Runner_of_Repr
       (CreateRunner (sample_config kScaleBiasMaskSoftmax None None)))
  = repeat
      (Runner_of_Repr
         (CreateRunner (sample_config kScaleBiasMaskSoftmax None None))) 3.
Proof.
  apply (@matching_calls_all_complete
           (Runner_of_Repr
              (CreateRunner (sample_config kScaleBiasMaskSoftmax None None)))
           BiasMask_accessor
           (existT _ dnn.FusedMHAScaleBiasMaskSoftmaxOp
              (dnn.mkLazyOpRunner _ sample_algorithm))).
  - reflexivity.
  - repeat (constructor; [first [left; reflexivity | right; reflexivity]|]).
    constructor.
Defined.

(** ** Which accessor serves which kind *)

(** X9: the accessor to call on a runner built from a configuration is
    decided by the kind: an accessor returns, and returns a fresh plan of
    its family for the configuration's algorithm, exactly when the kind is
    one of the case labels of that family; for every other kind that
    accessor is a fatal check failure. *)
Theorem accessor_for_kind (config : GpufMHAConfig) (a : Accessor) :
  exists this,
    Runner_of_Config config = Returns this /\
    if existsb (CudnnfMHAKind_eqb (kind config))
               (case_labels (accessor_family a))
    then narrow a this =
         Returns (Some (existT _ (accessor_family a)
                          (dnn.mkLazyOpRunner (accessor_family a)
                             (algorithm config))))
    else is_check_failure (narrow a this) = true.
Proof.
  exists (Runner_of_Repr (CreateRunner config)).
  split; [apply Runner_of_Config_returns|].
  unfold CreateRunner.
  destruct (kind config), a; reflexivity.
Qed.
